(** * Account actions and the dashboard webview widget

    A shallow embedding of two presentation-layer fragments:

    - the account actions ([AddAccountAction], [RemoveAccountAction],
      [ApplyFilterAction], [RefreshAccountAction]), whose [run] methods
      delegate to injected services and report through promises, event
      emitters and notifications;
    - the [WebviewWidget] dashboard component, which owns an embedded
      webview and its message subscription.

    Every call to a collaborator is recorded in a trace, so that the order
    of the observable effects can be stated and proved. *)

From Stdlib Require Import String Ascii List Bool Arith Lia.
Import ListNotations.
Open Scope string_scope.
Open Scope list_scope.

(* ================================================================== *)
(** ** Localisation *)

Module Nls.

Definition digit_of (c : ascii) : option nat :=
  let n := nat_of_ascii c in
  if ((48 <=? n) && (n <=? 57))%nat then Some (n - 48)%nat else None.

(** Modelled from the spec: the message formatter of [vs/nls] is not
    among the sources.  A placeholder [{d}] with a single digit [d] is
    replaced by the argument of that index when there is one, and is
    left as it stands otherwise. *)
Fixpoint format (message : string) (args : list string) : string :=
  match message with
  | EmptyString => EmptyString
  | String c tl =>
      match tl with
      | String d (String close rest) =>
          match digit_of d with
          | Some i =>
              match nth_error args i with
              | Some a =>
                  if (Ascii.eqb c "{"%char && Ascii.eqb close "}"%char)%bool
                  then (a ++ format rest args)%string
                  else String c (format tl args)
              | None => String c (format tl args)
              end
          | None => String c (format tl args)
          end
      | _ => String c (format tl args)
      end
  end.

(** Modelled from the spec: [localize] of [vs/nls] is not among the
    sources.  The spec takes the messages as the literal default text,
    so [localize] ignores the key and formats the default message. *)
Definition localize (key message : string) (args : list string) : string :=
  format message args.

End Nls.

(* ================================================================== *)
(** ** Promises and the effect monad of the account actions *)

(** Error values.  The error emitter is an [Emitter<string>] and the
    rejection values built by the code are strings. *)
Definition Err := string.

(** The eventual fate of a promise. *)
Inductive Settlement (A : Type) : Type :=
| Fulfilled (v : A)
| Rejected (e : Err)
| Pending.

Arguments Fulfilled {A} v.
Arguments Rejected {A} e.
Arguments Pending {A}.

Module AccountActions.

(** *** Data passed to the collaborators *)

Record AccountKey := { providerId : string; accountId : string }.
Record AccountDisplayInfo := { displayName : string }.
Record Account := { key : AccountKey; displayInfo : AccountDisplayInfo }.

Record IConfirmation := {
  message : string;
  primaryButton : string;
  secondaryButton : string;
  type : string
}.

Inductive Severity := Ignore | Info | Warning | Error.

(** The asynchronous operations of the collaborators. *)
Inductive Call :=
| addAccount (provider : string)
| removeAccount (k : AccountKey)
| refreshAccount (a : Account)
| confirm (c : IConfirmation).

(** The three emitters of [AddAccountAction]. *)
Inductive Emitter :=
| addAccountStart
| addAccountError
| addAccountComplete.

(** The observable effects, in the order in which they happen. *)
Inductive Effect :=
| Fire (em : Emitter) (payload : option string)
| LogError (msg : string)
| Invoke (c : Call)
| Settles (c : Call)
| Notify (severity : Severity) (msg : string).

(** How the collaborators answer: the fate of the promise each
    operation returns.  Modelled from the spec: the services are
    injected and their implementations are not among the sources;
    [addAccount] and [refreshAccount] return [Promise<void>],
    [removeAccount] and [confirm] return [Promise<boolean>]. *)
Record Services := {
  svc_addAccount : string -> Settlement unit;
  svc_removeAccount : AccountKey -> Settlement bool;
  svc_refreshAccount : Account -> Settlement unit;
  dlg_confirm : IConfirmation -> Settlement bool
}.

(** A promise: its fate, and the collaborator operation it comes from
    when it is not one of the action's own. *)
Record Promise (A : Type) := {
  origin : option Call;
  state : Settlement A
}.
Arguments origin {A} p.
Arguments state {A} p.

(** The world: the trace of effects, and one cell per promise made by
    [new Promise] (all of them are [Promise<boolean>]). *)
Record World := {
  trace : list Effect;
  cells : list (Settlement bool)
}.

Definition M (A : Type) : Type := World -> A * World.

Definition ret {A} (a : A) : M A := fun w => (a, w).

Definition bind {A B} (m : M A) (f : A -> M B) : M B :=
  fun w => let (a, w') := m w in f a w'.

Notation "x <- m ;; k" := (bind m (fun x => k))
  (at level 61, m at next level, right associativity).
Notation "m ;; k" := (bind m (fun _ => k))
  (at level 61, right associativity).

Definition emit (e : Effect) : M unit :=
  fun w => (tt, {| trace := trace w ++ [e]; cells := cells w |}).

Fixpoint set_nth {A} (i : nat) (x : A) (l : list A) : list A :=
  match l, i with
  | [], _ => []
  | _ :: tl, O => x :: tl
  | y :: tl, S j => y :: set_nth j x tl
  end.

(** [resolve] and [reject] of the promise in cell [i]: the first call
    settles the promise, later calls are ignored. *)
Definition settle (i : nat) (s : Settlement bool) : M unit :=
  fun w =>
    match nth_error (cells w) i with
    | Some Pending =>
        (tt, {| trace := trace w; cells := set_nth i s (cells w) |})
    | _ => (tt, w)
    end.

(** [new Promise((resolve, reject) => ...)]: the executor runs at once. *)
Definition new_Promise
    (executor : (bool -> M unit) -> (Err -> M unit) -> M unit)
    : M (Promise bool) :=
  fun w =>
    let i := length (cells w) in
    let w1 := {| trace := trace w; cells := cells w ++ [Pending] |} in
    let (_, w2) :=
      executor (fun b => settle i (Fulfilled b))
               (fun e => settle i (Rejected e)) w1 in
    ({| origin := None; state := nth i (cells w2) Pending |}, w2).

(** [Promise.resolve(v)]. *)
Definition Promise_resolve {A} (v : A) : M (Promise A) :=
  ret {| origin := None; state := Fulfilled v |}.

(** The event loop delivers the settlement of a collaborator's promise. *)
Definition delivered {A} (p : Promise A) : M unit :=
  match origin p with
  | Some c => emit (Settles c)
  | None => ret tt
  end.

(** [p.then(onFulfilled, onRejected)] where the callbacks return nothing
    and the derived promise is dropped.  The callbacks of a promise that
    never settles never run. *)
Definition then2 {A} (p : Promise A)
    (onFulfilled : A -> M unit) (onRejected : Err -> M unit) : M unit :=
  match state p with
  | Fulfilled v => delivered p ;; onFulfilled v
  | Rejected e => delivered p ;; onRejected e
  | Pending => ret tt
  end.

(** [p.then(onFulfilled)] where the callback returns a promise: the
    derived promise follows the returned one, and a rejection of [p]
    passes through. *)
Definition then1 {A B} (p : Promise A)
    (onFulfilled : A -> M (Promise B)) : M (Promise B) :=
  match state p with
  | Fulfilled v => delivered p ;; onFulfilled v
  | Rejected e => delivered p ;; ret {| origin := None; state := Rejected e |}
  | Pending => ret {| origin := None; state := Pending |}
  end.

(** [error] of [sql/base/common/log]. *)
Definition error (msg : string) : M unit := emit (LogError msg).

Section WithServices.

Variable svc : Services.

Definition call_addAccount (provider : string) : M (Promise unit) :=
  emit (Invoke (addAccount provider)) ;;
  ret {| origin := Some (addAccount provider);
         state := svc_addAccount svc provider |}.

Definition call_removeAccount (k : AccountKey) : M (Promise bool) :=
  emit (Invoke (removeAccount k)) ;;
  ret {| origin := Some (removeAccount k);
         state := svc_removeAccount svc k |}.

Definition call_refreshAccount (a : Account) : M (Promise unit) :=
  emit (Invoke (refreshAccount a)) ;;
  ret {| origin := Some (refreshAccount a);
         state := svc_refreshAccount svc a |}.

Definition call_confirm (c : IConfirmation) : M (Promise bool) :=
  emit (Invoke (confirm c)) ;;
  ret {| origin := Some (confirm c); state := dlg_confirm svc c |}.

Definition notify (severity : Severity) (msg : string) : M unit :=
  emit (Notify severity msg).

(** *** AddAccountAction *)

Record AddAccountAction := { _providerId : string }.

Definition AddAccountAction_run (self : AddAccountAction)
    : M (Promise bool) :=
  emit (Fire addAccountStart None) ;;
  new_Promise (fun resolve reject =>
    p <- call_addAccount (_providerId self) ;;
    then2 p
      (fun _ =>
         emit (Fire addAccountComplete None) ;;
         resolve true)
      (fun err =>
         error ("Error while adding account: " ++ err)%string ;;
         emit (Fire addAccountError (Some err)) ;;
         emit (Fire addAccountComplete None) ;;
         reject err)).

(** *** RemoveAccountAction *)

Record RemoveAccountAction := { _account : Account }.

Definition confirmation_of (self : RemoveAccountAction) : IConfirmation :=
  {| message :=
       Nls.localize "confirmRemoveUserAccountMessage"
         "Are you sure you want to remove '{0}'?"
         [displayName (displayInfo (_account self))];
     primaryButton := Nls.localize "accountActions.yes" "Yes" [];
     secondaryButton := Nls.localize "accountActions.no" "No" [];
     type := "question" |}.

Definition RemoveAccountAction_run (self : RemoveAccountAction)
    : M (Promise bool) :=
  let confirm := confirmation_of self in
  d <- call_confirm confirm ;;
  then1 d (fun result =>
    if negb result then
      Promise_resolve false
    else
      new_Promise (fun resolve reject =>
        p <- call_removeAccount (key (_account self)) ;;
        then2 p
          (fun result => resolve result)
          (fun err =>
             notify Error
               (Nls.localize "removeAccountFailed"
                  "Failed to remove account" []) ;;
             resolve false))).

(** *** ApplyFilterAction *)

Definition ApplyFilterAction_run : M (Promise bool) :=
  Promise_resolve true.

(** *** RefreshAccountAction *)

(** The public field [account] is unset until a caller assigns it. *)
Record RefreshAccountAction := { account : option Account }.

Definition RefreshAccountAction_run (self : RefreshAccountAction)
    : M (Promise bool) :=
  new_Promise (fun resolve reject =>
    match account self with
    | Some a =>
        p <- call_refreshAccount a ;;
        then2 p
          (fun _ => resolve true)
          (fun err =>
             error ("Error while refreshing account: " ++ err)%string ;;
             reject err)
    | None =>
        let errorMessage :=
          Nls.localize "NoAccountToRefresh"
            "There is no account to refresh" [] in
        reject errorMessage
    end).

End WithServices.

(** *** Reading a trace *)

(** The effects that a computation added to the trace. *)
Definition new_events (w w' : World) : list Effect :=
  skipn (length (trace w)) (trace w').

(** The events fired on the emitters, with their payloads. *)
Fixpoint fired (t : list Effect) : list (Emitter * option string) :=
  match t with
  | [] => []
  | Fire em payload :: tl => (em, payload) :: fired tl
  | _ :: tl => fired tl
  end.

(** The collaborator operations that were invoked. *)
Fixpoint invoked (t : list Effect) : list Call :=
  match t with
  | [] => []
  | Invoke c :: tl => c :: invoked tl
  | _ :: tl => invoked tl
  end.

(** The notifications that were shown. *)
Fixpoint notifications (t : list Effect) : list (Severity * string) :=
  match t with
  | [] => []
  | Notify s m :: tl => (s, m) :: notifications tl
  | _ :: tl => notifications tl
  end.

Definition is_fire (em : Emitter) (e : Effect) : bool :=
  match e, em with
  | Fire addAccountStart _, addAccountStart => true
  | Fire addAccountError _, addAccountError => true
  | Fire addAccountComplete _, addAccountComplete => true
  | _, _ => false
  end.

Definition count_fired (em : Emitter) (t : list Effect) : nat :=
  length (filter (is_fire em) t).

(** [a] happens strictly before [b] in the trace [t]. *)
Definition occurs_before (a b : Effect) (t : list Effect) : Prop :=
  exists l1 l2 l3, t = l1 ++ a :: l2 ++ b :: l3.

Definition idle : World := {| trace := []; cells := [] |}.

(** The messages written to the error log. *)
Fixpoint logged (t : list Effect) : list string :=
  match t with
  | [] => []
  | LogError msg :: tl => msg :: logged tl
  | _ :: tl => logged tl
  end.

Definition settled {A} (s : Settlement A) : bool :=
  match s with
  | Pending => false
  | _ => true
  end.

Definition rejected {A} (s : Settlement A) : bool :=
  match s with
  | Rejected _ => true
  | _ => false
  end.

End AccountActions.

(* ================================================================== *)
(** ** The webview widget *)

Module Webview.

(** Identity of an object made at run time (a webview element or a
    subscription). *)
Definition Handle := nat.

(** *** The connection data of the dashboard service *)

(** A connection info written out by value: what the service is given
    when a connection is made. *)
Record ConnectionProfile := {
  profile_providerName : string;
  profile_id : string;
  profile_options : list (string * string)
}.

Record ServerInfo := {
  serverVersion : string;
  isCloud : bool
}.

Record ConnectionInfo := {
  connectionProfile : ConnectionProfile;
  serverInfo_of : ServerInfo
}.

(** A reference to an object in the memory of the service. *)
Definition Ref := nat.

(** An option bag: a JavaScript object used as a map. *)
Definition Options := list (string * string).

(** The connection profile as the service holds it: two strings, and
    the option bag, which is an object of its own held by reference. *)
Record ProfileObject := {
  held_providerName : string;
  held_id : string;
  held_options : Ref
}.

(** The memory of the connection management service: its current
    [connectionInfo] (the profile and a reference to the server info
    object) and the objects that references point to.  A reference is
    a position in the list of objects; objects are never removed. *)
Record Service := {
  held_profile : ProfileObject;
  held_serverInfo : Ref;
  options_objects : list Options;
  serverInfo_objects : list ServerInfo
}.

(** The object that [connection] returns: the strings are copied, the
    option bag is the profile's own, by reference. *)
Record Connection := {
  providerName : string;
  connectionId : string;
  options : Ref
}.

Inductive Parts := TITLEBAR_PART | EDITOR_PART | STATUSBAR_PART.

(** *** Calls to the collaborators, in the order in which they happen *)

Inductive Effect :=
| RegisterWebview (id : string)
| CreateInstance (h : Handle) (container : Parts) (allowScripts : bool)
| WvDispose (h : Handle)
| WvMountTo (h : Handle) (node : string)
| WvOnMessage (h : Handle) (subscription : Handle)
| SubscriptionDispose (subscription : Handle)
| WvStyle (h : Handle) (theme : string)
| WvSetContents (h : Handle) (html : string)
| WvLayout (h : Handle)
| WvSendMessage (h : Handle) (msg : string)
| OnMessageFire (msg : string).

(** *** The widget and its surroundings *)

(** The fields of the component.  A field that has not been assigned is
    [None].  The two [memoize_] fields are the per-instance slots in
    which the [memoize] decorator keeps the value of a getter. *)
Record WebviewWidget := {
  _id : string;
  _webview : option Handle;
  _html : option string;
  _onMessageDisposable : option Handle;
  _el : string;
  memoize_connection : option Connection;
  memoize_serverInfo : option Ref
}.

Record State := {
  self : WebviewWidget;
  connectionInfo : Service;
  theme : string;
  fresh : Handle;
  trace : list Effect
}.

Definition with_self (f : WebviewWidget -> WebviewWidget) (st : State)
    : State :=
  {| self := f (self st);
     connectionInfo := connectionInfo st;
     theme := theme st;
     fresh := fresh st;
     trace := trace st |}.

Definition with_trace (t : list Effect) (st : State) : State :=
  {| self := self st;
     connectionInfo := connectionInfo st;
     theme := theme st;
     fresh := fresh st;
     trace := t |}.

Definition set_webview (v : option Handle) (w : WebviewWidget) :=
  {| _id := _id w; _webview := v; _html := _html w;
     _onMessageDisposable := _onMessageDisposable w; _el := _el w;
     memoize_connection := memoize_connection w;
     memoize_serverInfo := memoize_serverInfo w |}.

Definition set_html (v : option string) (w : WebviewWidget) :=
  {| _id := _id w; _webview := _webview w; _html := v;
     _onMessageDisposable := _onMessageDisposable w; _el := _el w;
     memoize_connection := memoize_connection w;
     memoize_serverInfo := memoize_serverInfo w |}.

Definition set_onMessageDisposable (v : option Handle) (w : WebviewWidget) :=
  {| _id := _id w; _webview := _webview w; _html := _html w;
     _onMessageDisposable := v; _el := _el w;
     memoize_connection := memoize_connection w;
     memoize_serverInfo := memoize_serverInfo w |}.

Definition set_memoize_connection (v : option Connection)
    (w : WebviewWidget) :=
  {| _id := _id w; _webview := _webview w; _html := _html w;
     _onMessageDisposable := _onMessageDisposable w; _el := _el w;
     memoize_connection := v;
     memoize_serverInfo := memoize_serverInfo w |}.

Definition set_memoize_serverInfo (v : option Ref)
    (w : WebviewWidget) :=
  {| _id := _id w; _webview := _webview w; _html := _html w;
     _onMessageDisposable := _onMessageDisposable w; _el := _el w;
     memoize_connection := memoize_connection w;
     memoize_serverInfo := v |}.

(** *** The monad of the methods: state, and a thrown error *)

Inductive Result (A : Type) : Type :=
| Returned (a : A)
| Thrown (e : string).
Arguments Returned {A} a.
Arguments Thrown {A} e.

Definition W (A : Type) : Type := State -> Result A * State.

Definition ret {A} (a : A) : W A := fun st => (Returned a, st).

Definition bind {A B} (m : W A) (f : A -> W B) : W B :=
  fun st =>
    match m st with
    | (Returned a, st') => f a st'
    | (Thrown e, st') => (Thrown e, st')
    end.

Notation "x <- m ;; k" := (bind m (fun x => k))
  (at level 61, m at next level, right associativity).
Notation "m ;; k" := (bind m (fun _ => k))
  (at level 61, right associativity).

Definition throw {A} (e : string) : W A := fun st => (Thrown e, st).

Definition this {A} (field : WebviewWidget -> A) : W A :=
  fun st => (Returned (field (self st)), st).

Definition assign (f : WebviewWidget -> WebviewWidget) : W unit :=
  fun st => (Returned tt, with_self f st).

Definition emit (e : Effect) : W unit :=
  fun st => (Returned tt, with_trace (trace st ++ [e]) st).

(** An object made at run time gets the next unused handle. *)
Definition allocate : W Handle :=
  fun st =>
    (Returned (fresh st),
     {| self := self st;
        connectionInfo := connectionInfo st;
        theme := theme st;
        fresh := S (fresh st);
        trace := trace st |}).

(** A method call or property write on [this._webview]; it throws when
    the field is unset. *)
Definition on_webview (call : Handle -> Effect) : W unit :=
  wv <- this _webview ;;
  match wv with
  | Some h => emit (call h)
  | None => throw "TypeError: Cannot read property of undefined"
  end.

(** Truth value of a [string | undefined] in a condition: unset and the
    empty string are false. *)
Definition truthy (v : option string) : bool :=
  match v with
  | Some html => negb (String.eqb html "")
  | None => false
  end.

Definition is_set {A} (v : option A) : bool :=
  match v with Some _ => true | None => false end.

(** *** The methods of the component *)

(** The constructor: [_id] comes from the widget configuration, the
    other fields stay unset. *)
Definition construct (config_id : string) (el : string) : WebviewWidget :=
  {| _id := config_id; _webview := None; _html := None;
     _onMessageDisposable := None; _el := el;
     memoize_connection := None; memoize_serverInfo := None |}.

Definition id : W string := this _id.

Definition setHtml (html : string) : W unit :=
  assign (set_html (Some html)) ;;
  wv <- this _webview ;;
  if is_set wv then
    on_webview (fun h => WvSetContents h html) ;;
    on_webview WvLayout
  else ret tt.

(** Modelled from the spec: the [memoize] decorator of
    [vs/base/common/decorators] is not among the sources.  The getter
    body runs on the first access and its value is kept in a slot of
    the instance; every later access returns the kept value. *)
Definition memoize {A} (slot : WebviewWidget -> option A)
    (store : option A -> WebviewWidget -> WebviewWidget)
    (getter : W A) : W A :=
  kept <- this slot ;;
  match kept with
  | Some v => ret v
  | None =>
      v <- getter ;;
      assign (store (Some v)) ;;
      ret v
  end.

Definition connection_body : W Connection :=
  fun st =>
    let currentConnection := held_profile (connectionInfo st) in
    let connection :=
      {| providerName := held_providerName currentConnection;
         connectionId := held_id currentConnection;
         options := held_options currentConnection |} in
    (Returned connection, st).

Definition connection : W Connection :=
  memoize memoize_connection set_memoize_connection connection_body.

(** The getter returns the service's own server info object. *)
Definition serverInfo_body : W Ref :=
  fun st => (Returned (held_serverInfo (connectionInfo st)), st).

Definition serverInfo : W Ref :=
  memoize memoize_serverInfo set_memoize_serverInfo serverInfo_body.

Definition layout : W unit := on_webview WvLayout.

Definition sendMessage (message : string) : W unit :=
  wv <- this _webview ;;
  if is_set wv then on_webview (fun h => WvSendMessage h message)
  else ret tt.

Definition createInstance (container : Parts) (allowScripts : bool)
    : W Handle :=
  h <- allocate ;;
  emit (CreateInstance h container allowScripts) ;;
  ret h.

(** [this._webview.onMessage(listener)]: returns the subscription. *)
Definition webview_onMessage : W Handle :=
  wv <- this _webview ;;
  match wv with
  | Some h =>
      s <- allocate ;;
      emit (WvOnMessage h s) ;;
      ret s
  | None => throw "TypeError: Cannot read property of undefined"
  end.

Definition getTheme : W string := fun st => (Returned (theme st), st).

Definition _createWebview : W unit :=
  wv <- this _webview ;;
  (if is_set wv then on_webview WvDispose else ret tt) ;;
  d <- this _onMessageDisposable ;;
  (match d with
   | Some s => emit (SubscriptionDispose s)
   | None => ret tt
   end) ;;
  h <- createInstance EDITOR_PART true ;;
  assign (set_webview (Some h)) ;;
  el <- this _el ;;
  on_webview (fun h => WvMountTo h el) ;;
  s <- webview_onMessage ;;
  assign (set_onMessageDisposable (Some s)) ;;
  th <- getTheme ;;
  on_webview (fun h => WvStyle h th) ;;
  html <- this _html ;;
  (if truthy html then
     on_webview (fun h =>
       WvSetContents h (match html with Some x => x | None => "" end))
   else ret tt) ;;
  on_webview WvLayout.

Definition ngOnInit : W unit :=
  i <- this _id ;;
  emit (RegisterWebview i) ;;
  _createWebview.

(** *** What is alive, read off the trace *)

Definition webviews_step (live : list Handle) (e : Effect) : list Handle :=
  match e with
  | CreateInstance h _ _ => live ++ [h]
  | WvDispose h => filter (fun x => negb (Nat.eqb x h)) live
  | _ => live
  end.

(** The webview elements that were made and not disposed. *)
Definition live_webviews (t : list Effect) : list Handle :=
  fold_left webviews_step t [].

Definition subscriptions_step (live : list (Handle * Handle)) (e : Effect)
    : list (Handle * Handle) :=
  match e with
  | WvOnMessage h s => live ++ [(h, s)]
  | SubscriptionDispose s => filter (fun p => negb (Nat.eqb (snd p) s)) live
  | _ => live
  end.

(** The message subscriptions (webview, subscription) that were made
    and not disposed. *)
Definition live_subscriptions (t : list Effect) : list (Handle * Handle) :=
  fold_left subscriptions_step t [].

(** Modelled from the spec: the emitter behind [onMessage] of the
    webview element is not among the sources.  When webview [h] posts
    [msg], the listener of every live subscription on [h] runs; the
    widget's listener is [e => this._onMessage.fire(e)]. *)
Definition post_message (h : Handle) (msg : string) (st : State) : State :=
  with_trace
    (trace st ++
     map (fun _ => OnMessageFire msg)
       (filter (fun p => Nat.eqb (fst p) h) (live_subscriptions (trace st))))
    st.

(** *** Changes in the memory of the service *)

Fixpoint put {A} (r : Ref) (x : A) (l : list A) : list A :=
  match l, r with
  | [], _ => []
  | _ :: tl, O => x :: tl
  | y :: tl, S r' => y :: put r' x tl
  end.

(** A new connection info replaces the current one: the service holds
    a new profile, a new option bag and a new server info object; the
    objects it held before stay where they are. *)
Definition hold (info : ConnectionInfo) (os : list Options)
    (ss : list ServerInfo) : Service :=
  {| held_profile :=
       {| held_providerName := profile_providerName (connectionProfile info);
          held_id := profile_id (connectionProfile info);
          held_options := length os |};
     held_serverInfo := length ss;
     options_objects := os ++ [profile_options (connectionProfile info)];
     serverInfo_objects := ss ++ [serverInfo_of info] |}.

(** The name and id of the current profile are assigned in place. *)
Definition rename (name i : string) (svc : Service) : Service :=
  {| held_profile :=
       {| held_providerName := name;
          held_id := i;
          held_options := held_options (held_profile svc) |};
     held_serverInfo := held_serverInfo svc;
     options_objects := options_objects svc;
     serverInfo_objects := serverInfo_objects svc |}.

(** [bag[k] = v]. *)
Definition assign_key (k v : string) (bag : Options) : Options :=
  (k, v) :: filter (fun p => negb (String.eqb (fst p) k)) bag.

(** The option bag [r] is changed in place. *)
Definition set_option (r : Ref) (k v : string) (svc : Service) : Service :=
  match nth_error (options_objects svc) r with
  | Some bag =>
      {| held_profile := held_profile svc;
         held_serverInfo := held_serverInfo svc;
         options_objects := put r (assign_key k v bag) (options_objects svc);
         serverInfo_objects := serverInfo_objects svc |}
  | None => svc
  end.

(** The fields of the server info object [r] are assigned in place. *)
Definition overwrite_serverInfo (r : Ref) (v : ServerInfo) (svc : Service)
    : Service :=
  {| held_profile := held_profile svc;
     held_serverInfo := held_serverInfo svc;
     options_objects := options_objects svc;
     serverInfo_objects := put r v (serverInfo_objects svc) |}.

Definition with_service (f : Service -> Service) (st : State) : State :=
  {| self := self st;
     connectionInfo := f (connectionInfo st);
     theme := theme st;
     fresh := fresh st;
     trace := trace st |}.

(** *** Runs of the widget *)

(** What can happen to a widget: calls of its methods by the dashboard,
    messages from a webview, and changes around it. *)
Inductive Op :=
| op_ngOnInit
| op_setHtml (html : string)
| op_connection
| op_serverInfo
| op_layout
| op_sendMessage (message : string)
| op_createWebview
| op_post_message (h : Handle) (msg : string)
| op_connection_changed (info : ConnectionInfo)
| op_theme_changed (th : string)
| op_profile_renamed (name i : string)
| op_options_changed (r : Ref) (k v : string)
| op_serverInfo_changed (r : Ref) (v : ServerInfo).

Definition step (o : Op) (st : State) : State :=
  match o with
  | op_ngOnInit => snd (ngOnInit st)
  | op_setHtml html => snd (setHtml html st)
  | op_connection => snd (connection st)
  | op_serverInfo => snd (serverInfo st)
  | op_layout => snd (layout st)
  | op_sendMessage m => snd (sendMessage m st)
  | op_createWebview => snd (_createWebview st)
  | op_post_message h msg => post_message h msg st
  | op_connection_changed info =>
      {| self := self st;
         connectionInfo :=
           hold info (options_objects (connectionInfo st))
             (serverInfo_objects (connectionInfo st));
         theme := theme st;
         fresh := fresh st; trace := trace st |}
  | op_theme_changed th =>
      {| self := self st; connectionInfo := connectionInfo st; theme := th;
         fresh := fresh st; trace := trace st |}
  | op_profile_renamed name i => with_service (rename name i) st
  | op_options_changed r k v => with_service (set_option r k v) st
  | op_serverInfo_changed r v => with_service (overwrite_serverInfo r v) st
  end.

Definition run_ops (ops : list Op) (st : State) : State :=
  fold_left (fun s o => step o s) ops st.

(** The state right after the constructor. *)
Definition constructed (config_id el : string) (info : ConnectionInfo)
    (th : string) : State :=
  {| self := construct config_id el;
     connectionInfo := hold info [] [];
     theme := th; fresh := 0%nat; trace := [] |}.

Definition new_events (st st' : State) : list Effect :=
  skipn (length (trace st)) (trace st').

(** The values assigned to the [contents] of webview [h], in order. *)
Fixpoint contents_history (h : Handle) (t : list Effect) : list string :=
  match t with
  | [] => []
  | WvSetContents h' html :: tl =>
      if Nat.eqb h' h then html :: contents_history h tl
      else contents_history h tl
  | _ :: tl => contents_history h tl
  end.

(** The widget owns what is alive: at most its current webview and its
    current subscription. *)
Definition owns (st : State) : Prop :=
  live_webviews (trace st)
  = match _webview (self st) with Some h => [h] | None => [] end
  /\ live_subscriptions (trace st)
     = match _webview (self st), _onMessageDisposable (self st) with
       | Some h, Some s => [(h, s)]
       | _, _ => []
       end.

(** The calls that neither make nor dispose a webview or a subscription. *)
Definition neutral (e : Effect) : bool :=
  match e with
  | CreateInstance _ _ _ | WvDispose _
  | WvOnMessage _ _ | SubscriptionDispose _ => false
  | _ => true
  end.

(** The projection of the current connection profile that [connection]
    exposes. *)
Definition connection_of (svc : Service) : Connection :=
  {| providerName := held_providerName (held_profile svc);
     connectionId := held_id (held_profile svc);
     options := held_options (held_profile svc) |}.


(** What a caller reads through a server info object at that moment. *)
Definition read_serverInfo (svc : Service) (r : Ref) : option ServerInfo :=
  nth_error (serverInfo_objects svc) r.


(** What an access to [serverInfo] shows. *)
Definition serverInfo_shown (st : State) : option (option ServerInfo) :=
  match serverInfo st with
  | (Returned r, st') => Some (read_serverInfo (connectionInfo st') r)
  | (Thrown _, _) => None
  end.




(** The operations that create a webview. *)
Definition is_creation (o : Op) : bool :=
  match o with
  | op_ngOnInit | op_createWebview => true
  | _ => false
  end.

(** A widget on which no creation has run yet. *)
Definition pristine (config_id el : string) (st : State) : Prop :=
  _webview (self st) = None
  /\ _onMessageDisposable (self st) = None
  /\ fresh st = 0%nat
  /\ trace st = []
  /\ _id (self st) = config_id
  /\ _el (self st) = el.

(** The messages forwarded to webviews. *)
Fixpoint sent (t : list Effect) : list (Handle * string) :=
  match t with
  | [] => []
  | WvSendMessage h msg :: tl => (h, msg) :: sent tl
  | _ :: tl => sent tl
  end.

Definition is_setHtml (o : Op) : bool :=
  match o with
  | op_setHtml _ => true
  | _ => false
  end.

(** The webview on which a call is made, for the calls made on one. *)
Definition target (e : Effect) : option Handle :=
  match e with
  | WvDispose h | WvMountTo h _ | WvOnMessage h _ | WvStyle h _
  | WvSetContents h _ | WvLayout h | WvSendMessage h _ => Some h
  | _ => None
  end.

Definition uses_live (live : list Handle) (e : Effect) : bool :=
  match target e with
  | Some h => existsb (Nat.eqb h) live
  | None => true
  end.

(** Every call of the trace [t] on a webview is made while that webview
    is alive, [live] being the webviews alive at the start. *)
Fixpoint used_live (live : list Handle) (t : list Effect) : bool :=
  match t with
  | [] => true
  | e :: tl => uses_live live e && used_live (webviews_step live e) tl
  end.

(** *** The creation sequence, as the spec words it *)

(** Dispose the existing webview and message subscription, if any. *)
Definition disposals (w : WebviewWidget) : list Effect :=
  match _webview w with Some h => [WvDispose h] | None => [] end
  ++ match _onMessageDisposable w with
     | Some s => [SubscriptionDispose s]
     | None => []
     end.

(** Reapply the cached HTML to webview [h]; the cached HTML counts as
    present when it is a non-empty string. *)
Definition reapplied (w : WebviewWidget) (h : Handle) : list Effect :=
  match _html w with
  | Some html => if String.eqb html "" then [] else [WvSetContents h html]
  | None => []
  end.

(** Dispose, instantiate on the editor part with scripts allowed, mount
    into the root node, subscribe to inbound messages, apply the theme,
    reapply the cached HTML, lay out. *)
Definition creation_sequence (st : State) : list Effect :=
  let h := fresh st in
  let s := S (fresh st) in
  disposals (self st)
  ++ [CreateInstance h EDITOR_PART true;
      WvMountTo h (_el (self st));
      WvOnMessage h s;
      WvStyle h (theme st)]
  ++ reapplied (self st) h
  ++ [WvLayout h].

(** The state that the creation sequence leaves behind. *)
Definition created (st : State) : State :=
  {| self :=
       set_onMessageDisposable (Some (S (fresh st)))
         (set_webview (Some (fresh st)) (self st));
     connectionInfo := connectionInfo st;
     theme := theme st;
     fresh := S (S (fresh st));
     trace := trace st ++ creation_sequence st |}.

(** [setHtml(html)] and then a creation. *)
Definition setHtml_then_create (html : string) : W unit :=
  setHtml html ;; _createWebview.

(** After [setHtml(html)] and a creation from [st], the contents of the
    new webview were set to [html] exactly once, and a layout of that
    webview follows. *)
Definition contents_set_once_then_layout (st : State) (html : string)
    : Prop :=
  let st' := snd (setHtml_then_create html st) in
  let h := fresh st in
  _webview (self st') = Some h
  /\ contents_history h (new_events st st') = [html]
  /\ exists before,
       new_events st st' = before ++ [WvSetContents h html; WvLayout h].

End Webview.

(* ================================================================== *)
(** ** Sample collaborators and widgets *)

Module Samples.
Import AccountActions.

Definition bob : Account :=
  {| key := {| providerId := "azure"; accountId := "bob@example.com" |};
     displayInfo := {| displayName := "Bob" |} |}.

(** Services on which every operation fails, and the user confirms. *)
Definition failing_services : Services :=
  {| svc_addAccount := fun _ => Rejected "E";
     svc_removeAccount := fun _ => Rejected "network down";
     svc_refreshAccount := fun _ => Rejected "expired";
     dlg_confirm := fun _ => Fulfilled true |}.

(** Services on which every operation succeeds, and the user declines. *)
Definition working_services : Services :=
  {| svc_addAccount := fun _ => Fulfilled tt;
     svc_removeAccount := fun _ => Fulfilled true;
     svc_refreshAccount := fun _ => Fulfilled tt;
     dlg_confirm := fun _ => Fulfilled false |}.

Definition add_azure : AddAccountAction := {| _providerId := "azure" |}.
Definition remove_bob : RemoveAccountAction := {| _account := bob |}.
Definition refresh_nobody : RefreshAccountAction := {| account := None |}.
Definition refresh_bob : RefreshAccountAction := {| account := Some bob |}.

Definition sql_server : Webview.ConnectionInfo :=
  {| Webview.connectionProfile :=
       {| Webview.profile_providerName := "MSSQL";
          Webview.profile_id := "connection-1";
          Webview.profile_options := [("server", "localhost")] |};
     Webview.serverInfo_of :=
       {| Webview.serverVersion := "15.0"; Webview.isCloud := false |} |}.

Definition postgres : Webview.ConnectionInfo :=
  {| Webview.connectionProfile :=
       {| Webview.profile_providerName := "PGSQL";
          Webview.profile_id := "connection-2";
          Webview.profile_options := [] |};
     Webview.serverInfo_of :=
       {| Webview.serverVersion := "12.1"; Webview.isCloud := true |} |}.

(** A widget right after its constructor: no webview yet. *)
Definition new_widget : Webview.State :=
  Webview.constructed "tasks" "div" sql_server "dark".

(** Services whose confirmation dialog itself fails. *)
Definition broken_dialog : Services :=
  {| svc_addAccount := fun _ => Fulfilled tt;
     svc_removeAccount := fun _ => Fulfilled true;
     svc_refreshAccount := fun _ => Fulfilled tt;
     dlg_confirm := fun _ => Rejected "dialog closed" |}.

(** A widget after its initialisation: it has a webview. *)
Definition live_widget : Webview.State :=
  Webview.run_ops [Webview.op_ngOnInit] new_widget.

End Samples.

(* ================================================================== *)
(** ** Properties of the account actions *)

Module AccountActionsFacts.
Import AccountActions.

(** *** The promise cells *)

Lemma nth_error_last_cell {A} (l : list A) (x : A) :
  nth_error (l ++ [x]) (length l) = Some x.
Proof.
  induction l as [|y l IH]; simpl; [reflexivity | exact IH].
Qed.

Lemma set_nth_last_cell {A} (l : list A) (x y : A) :
  set_nth (length l) y (l ++ [x]) = l ++ [y].
Proof.
  induction l as [|z l IH]; simpl; [reflexivity | now rewrite IH].
Qed.

Lemma nth_last_cell {A} (l : list A) (x d : A) :
  nth (length l) (l ++ [x]) d = x.
Proof.
  induction l as [|z l IH]; simpl; [reflexivity | exact IH].
Qed.

Lemma skipn_past {A} (l new : list A) :
  skipn (length l) (l ++ new) = new.
Proof.
  induction l as [|z l IH]; simpl; [reflexivity | exact IH].
Qed.

(** Settling the pending promise in the last cell fills that cell. *)
Lemma settle_last (t : list Effect) (cs : list (Settlement bool))
    (s : Settlement bool) :
  settle (length cs) s {| trace := t; cells := cs ++ [Pending] |}
  = (tt, {| trace := t; cells := cs ++ [s] |}).
Proof.
  unfold settle; simpl.
  now rewrite nth_error_last_cell, set_nth_last_cell.
Qed.

Ltac step_run :=
  repeat (rewrite ?settle_last, ?nth_last_cell, ?skipn_past,
            <- ?app_assoc; simpl).

Ltac unfold_run :=
  unfold AddAccountAction_run, RemoveAccountAction_run,
    RefreshAccountAction_run, call_addAccount, call_removeAccount,
    call_refreshAccount, call_confirm, notify, error, then1, then2,
    Promise_resolve, delivered, new_Promise, bind, emit, ret;
  simpl.

Section Runs.

Variable svc : Services.
Variable w : World.

(** *** What [AddAccountAction.run] does, by the fate of [addAccount] *)

Lemma add_run_rejected (self : AddAccountAction) (E : Err) :
  svc_addAccount svc (_providerId self) = Rejected E ->
  AddAccountAction_run svc self w
  = ({| origin := None; state := Rejected E |},
     {| trace := trace w ++
          [Fire addAccountStart None;
           Invoke (addAccount (_providerId self));
           Settles (addAccount (_providerId self));
           LogError ("Error while adding account: " ++ E)%string;
           Fire addAccountError (Some E);
           Fire addAccountComplete None];
        cells := cells w ++ [Rejected E] |}).
Proof.
  intros H. unfold_run. rewrite H. simpl. step_run. reflexivity.
Qed.

Lemma add_run_fulfilled (self : AddAccountAction) (u : unit) :
  svc_addAccount svc (_providerId self) = Fulfilled u ->
  AddAccountAction_run svc self w
  = ({| origin := None; state := Fulfilled true |},
     {| trace := trace w ++
          [Fire addAccountStart None;
           Invoke (addAccount (_providerId self));
           Settles (addAccount (_providerId self));
           Fire addAccountComplete None];
        cells := cells w ++ [Fulfilled true] |}).
Proof.
  intros H. unfold_run. rewrite H. simpl. step_run. reflexivity.
Qed.

Lemma add_run_pending (self : AddAccountAction) :
  svc_addAccount svc (_providerId self) = Pending ->
  AddAccountAction_run svc self w
  = ({| origin := None; state := Pending |},
     {| trace := trace w ++
          [Fire addAccountStart None;
           Invoke (addAccount (_providerId self))];
        cells := cells w ++ [Pending] |}).
Proof.
  intros H. unfold_run. rewrite H. simpl. step_run. reflexivity.
Qed.

(** *** What [RemoveAccountAction.run] does *)

Lemma remove_run_declined (self : RemoveAccountAction) :
  dlg_confirm svc (confirmation_of self) = Fulfilled false ->
  RemoveAccountAction_run svc self w
  = ({| origin := None; state := Fulfilled false |},
     {| trace := trace w ++
          [Invoke (confirm (confirmation_of self));
           Settles (confirm (confirmation_of self))];
        cells := cells w |}).
Proof.
  intros H. unfold_run. rewrite H. simpl. step_run. reflexivity.
Qed.

Lemma remove_run_confirmed (self : RemoveAccountAction) :
  dlg_confirm svc (confirmation_of self) = Fulfilled true ->
  RemoveAccountAction_run svc self w
  = match svc_removeAccount svc (key (_account self)) with
    | Fulfilled b =>
        ({| origin := None; state := Fulfilled b |},
         {| trace := trace w ++
              [Invoke (confirm (confirmation_of self));
               Settles (confirm (confirmation_of self));
               Invoke (removeAccount (key (_account self)));
               Settles (removeAccount (key (_account self)))];
            cells := cells w ++ [Fulfilled b] |})
    | Rejected _ =>
        ({| origin := None; state := Fulfilled false |},
         {| trace := trace w ++
              [Invoke (confirm (confirmation_of self));
               Settles (confirm (confirmation_of self));
               Invoke (removeAccount (key (_account self)));
               Settles (removeAccount (key (_account self)));
               Notify Error "Failed to remove account"];
            cells := cells w ++ [Fulfilled false] |})
    | Pending =>
        ({| origin := None; state := Pending |},
         {| trace := trace w ++
              [Invoke (confirm (confirmation_of self));
               Settles (confirm (confirmation_of self));
               Invoke (removeAccount (key (_account self)))];
            cells := cells w ++ [Pending] |})
    end.
Proof.
  intros H. unfold_run. rewrite H. simpl.
  destruct (svc_removeAccount svc (key (_account self)));
    simpl; step_run; reflexivity.
Qed.

(** *** What [RefreshAccountAction.run] does *)

Lemma refresh_run_unset (self : RefreshAccountAction) :
  account self = None ->
  RefreshAccountAction_run svc self w
  = ({| origin := None;
        state := Rejected "There is no account to refresh" |},
     {| trace := trace w;
        cells := cells w ++ [Rejected "There is no account to refresh"] |}).
Proof.
  intros H. unfold_run. rewrite H. simpl. step_run. reflexivity.
Qed.

Lemma refresh_run_set (self : RefreshAccountAction) (a : Account) :
  account self = Some a ->
  RefreshAccountAction_run svc self w
  = match svc_refreshAccount svc a with
    | Fulfilled _ =>
        ({| origin := None; state := Fulfilled true |},
         {| trace := trace w ++
              [Invoke (refreshAccount a); Settles (refreshAccount a)];
            cells := cells w ++ [Fulfilled true] |})
    | Rejected E =>
        ({| origin := None; state := Rejected E |},
         {| trace := trace w ++
              [Invoke (refreshAccount a); Settles (refreshAccount a);
               LogError ("Error while refreshing account: " ++ E)%string];
            cells := cells w ++ [Rejected E] |})
    | Pending =>
        ({| origin := None; state := Pending |},
         {| trace := trace w ++ [Invoke (refreshAccount a)];
            cells := cells w ++ [Pending] |})
    end.
Proof.
  intros H. unfold_run. rewrite H. simpl.
  destruct (svc_refreshAccount svc a); simpl; step_run; reflexivity.
Qed.

End Runs.

Ltac read_trace :=
  unfold new_events; simpl; rewrite ?skipn_past; simpl.

(** C1: when the account service's addAccount fails with error [E],
    [AddAccountAction.run] fires "start" first, then "error" with
    payload [E], then "complete", and the promise it returns rejects
    with [E]. *)
Theorem add_account_failure
    (svc : Services) (self : AddAccountAction) (w : World) (E : Err) :
  svc_addAccount svc (_providerId self) = Rejected E ->
  let r := AddAccountAction_run svc self w in
  let new := new_events w (snd r) in
  trace (snd r) = trace w ++ new
  /\ hd_error new = Some (Fire addAccountStart None)
  /\ fired new = [(addAccountStart, None);
                  (addAccountError, Some E);
                  (addAccountComplete, None)]
  /\ state (fst r) = Rejected E.
Proof.
  intros H r new. subst new r.
  rewrite (add_run_rejected svc w self E H).
  read_trace. repeat split.
Qed.

Lemma add_account_failure_witness :
  svc_addAccount Samples.failing_services (_providerId Samples.add_azure)
  = Rejected "E"
  /\ fired (new_events idle
              (snd (AddAccountAction_run Samples.failing_services
                      Samples.add_azure idle)))
     = [(addAccountStart, None);
        (addAccountError, Some "E");
        (addAccountComplete, None)].
Proof.
  split; [reflexivity|].
  exact (proj1 (proj2 (proj2
    (add_account_failure Samples.failing_services Samples.add_azure
       idle "E" eq_refl)))).
Defined.

(** C2: when addAccount succeeds, [AddAccountAction.run] fires exactly
    one "start" and exactly one "complete" event, "start" strictly
    before addAccount is invoked and "complete" after addAccount has
    settled, and the promise it returns resolves [true]. *)
Theorem add_account_success
    (svc : Services) (self : AddAccountAction) (w : World) (u : unit) :
  svc_addAccount svc (_providerId self) = Fulfilled u ->
  let r := AddAccountAction_run svc self w in
  let new := new_events w (snd r) in
  trace (snd r) = trace w ++ new
  /\ count_fired addAccountStart new = 1%nat
  /\ count_fired addAccountComplete new = 1%nat
  /\ fired new = [(addAccountStart, None); (addAccountComplete, None)]
  /\ invoked new = [addAccount (_providerId self)]
  /\ occurs_before (Fire addAccountStart None)
       (Invoke (addAccount (_providerId self))) new
  /\ occurs_before (Settles (addAccount (_providerId self)))
       (Fire addAccountComplete None) new
  /\ state (fst r) = Fulfilled true.
Proof.
  intros H r new. subst new r.
  rewrite (add_run_fulfilled svc w self u H).
  read_trace. repeat split.
  - exists [], [], [Settles (addAccount (_providerId self));
                    Fire addAccountComplete None].
    reflexivity.
  - exists [Fire addAccountStart None;
            Invoke (addAccount (_providerId self))], [], [].
    reflexivity.
Qed.

Lemma add_account_success_witness :
  svc_addAccount Samples.working_services (_providerId Samples.add_azure)
  = Fulfilled tt
  /\ state (fst (AddAccountAction_run Samples.working_services
                   Samples.add_azure idle))
     = Fulfilled true.
Proof.
  split; [reflexivity|].
  apply (add_account_success Samples.working_services Samples.add_azure
           idle tt eq_refl).
Defined.

(** C3: when the dialog service resolves the confirmation to [false],
    [RemoveAccountAction.run] never invokes removeAccount and the
    promise it returns resolves [false]. *)
Theorem remove_account_declined
    (svc : Services) (self : RemoveAccountAction) (w : World) :
  dlg_confirm svc (confirmation_of self) = Fulfilled false ->
  let r := RemoveAccountAction_run svc self w in
  let new := new_events w (snd r) in
  trace (snd r) = trace w ++ new
  /\ invoked new = [confirm (confirmation_of self)]
  /\ (forall k, ~ In (removeAccount k) (invoked new))
  /\ state (fst r) = Fulfilled false.
Proof.
  intros H r new. subst new r.
  rewrite (remove_run_declined svc w self H).
  read_trace. repeat split.
  intros k [Hk | []]. discriminate Hk.
Qed.

Lemma remove_account_declined_witness :
  dlg_confirm Samples.working_services (confirmation_of Samples.remove_bob)
  = Fulfilled false
  /\ state (fst (RemoveAccountAction_run Samples.working_services
                   Samples.remove_bob idle))
     = Fulfilled false.
Proof.
  split; [reflexivity|].
  apply (remove_account_declined Samples.working_services
           Samples.remove_bob idle eq_refl).
Defined.

(** C4: when the confirmation resolves to [true] and removeAccount
    rejects, the promise returned by [RemoveAccountAction.run] resolves
    [false] (it does not reject) and exactly one notification, of
    severity Error, is shown; when removeAccount resolves with a
    boolean [b], the promise resolves with [b] (and nothing is
    notified). *)
Theorem remove_account_confirmed
    (svc : Services) (self : RemoveAccountAction) (w : World) :
  dlg_confirm svc (confirmation_of self) = Fulfilled true ->
  let r := RemoveAccountAction_run svc self w in
  let new := new_events w (snd r) in
  trace (snd r) = trace w ++ new
  /\ In (removeAccount (key (_account self))) (invoked new)
  /\ match svc_removeAccount svc (key (_account self)) with
     | Rejected _ =>
         state (fst r) = Fulfilled false
         /\ notifications new = [(Error, "Failed to remove account")]
     | Fulfilled b =>
         state (fst r) = Fulfilled b /\ notifications new = []
     | Pending =>
         state (fst r) = Pending /\ notifications new = []
     end.
Proof.
  intros H r new. subst new r.
  rewrite (remove_run_confirmed svc w self H).
  destruct (svc_removeAccount svc (key (_account self)));
    read_trace; repeat split; auto.
Qed.

Lemma remove_account_confirmed_witness :
  dlg_confirm Samples.failing_services (confirmation_of Samples.remove_bob)
  = Fulfilled true
  /\ state (fst (RemoveAccountAction_run Samples.failing_services
                   Samples.remove_bob idle))
     = Fulfilled false
  /\ notifications
       (new_events idle
          (snd (RemoveAccountAction_run Samples.failing_services
                  Samples.remove_bob idle)))
     = [(Error, "Failed to remove account")].
Proof.
  split; [reflexivity|].
  exact (proj2 (proj2
    (remove_account_confirmed Samples.failing_services Samples.remove_bob
       idle eq_refl))).
Defined.

(** C5: with no account assigned to the [account] field,
    [RefreshAccountAction.run] rejects with the message
    "There is no account to refresh" and never invokes refreshAccount
    (it invokes nothing at all). *)
Theorem refresh_without_account
    (svc : Services) (self : RefreshAccountAction) (w : World) :
  account self = None ->
  let r := RefreshAccountAction_run svc self w in
  let new := new_events w (snd r) in
  trace (snd r) = trace w
  /\ new = []
  /\ (forall a, ~ In (refreshAccount a) (invoked new))
  /\ state (fst r) = Rejected "There is no account to refresh".
Proof.
  intros H r new. subst new r.
  rewrite (refresh_run_unset svc w self H).
  unfold new_events; simpl. rewrite skipn_all. repeat split.
  intros a [].
Qed.

Lemma refresh_without_account_witness :
  account Samples.refresh_nobody = None
  /\ state (fst (RefreshAccountAction_run Samples.working_services
                   Samples.refresh_nobody idle))
     = Rejected "There is no account to refresh".
Proof.
  split; [reflexivity|].
  apply (refresh_without_account Samples.working_services
           Samples.refresh_nobody idle eq_refl).
Defined.

(** C6: with an account [a] assigned, [RefreshAccountAction.run]
    invokes refreshAccount with [a] (once, and nothing else); when
    that succeeds the promise resolves [true], and when it fails with
    [E] the promise rejects with [E]. *)
Theorem refresh_with_account
    (svc : Services) (self : RefreshAccountAction) (w : World)
    (a : Account) :
  account self = Some a ->
  let r := RefreshAccountAction_run svc self w in
  let new := new_events w (snd r) in
  trace (snd r) = trace w ++ new
  /\ invoked new = [refreshAccount a]
  /\ match svc_refreshAccount svc a with
     | Fulfilled _ => state (fst r) = Fulfilled true
     | Rejected E => state (fst r) = Rejected E
     | Pending => state (fst r) = Pending
     end.
Proof.
  intros H r new. subst new r.
  rewrite (refresh_run_set svc w self a H).
  destruct (svc_refreshAccount svc a); read_trace; repeat split.
Qed.

Lemma refresh_with_account_witness :
  account Samples.refresh_bob = Some Samples.bob
  /\ state (fst (RefreshAccountAction_run Samples.failing_services
                   Samples.refresh_bob idle))
     = Rejected "expired"
  /\ state (fst (RefreshAccountAction_run Samples.working_services
                   Samples.refresh_bob idle))
     = Fulfilled true.
Proof.
  split; [reflexivity|]. split.
  - exact (proj2 (proj2
      (refresh_with_account Samples.failing_services Samples.refresh_bob
         idle Samples.bob eq_refl))).
  - exact (proj2 (proj2
      (refresh_with_account Samples.working_services Samples.refresh_bob
         idle Samples.bob eq_refl))).
Defined.

(** *** Further properties of the account actions *)

Lemma remove_run_dialog_rejected
    (svc : Services) (w : World) (self : RemoveAccountAction) (E : Err) :
  dlg_confirm svc (confirmation_of self) = Rejected E ->
  RemoveAccountAction_run svc self w
  = ({| origin := None; state := Rejected E |},
     {| trace := trace w ++
          [Invoke (confirm (confirmation_of self));
           Settles (confirm (confirmation_of self))];
        cells := cells w |}).
Proof.
  intros H. unfold_run. rewrite H. simpl. step_run. reflexivity.
Qed.

Lemma remove_run_dialog_pending
    (svc : Services) (w : World) (self : RemoveAccountAction) :
  dlg_confirm svc (confirmation_of self) = Pending ->
  RemoveAccountAction_run svc self w
  = ({| origin := None; state := Pending |},
     {| trace := trace w ++ [Invoke (confirm (confirmation_of self))];
        cells := cells w |}).
Proof.
  intros H. unfold_run. rewrite H. simpl. step_run. reflexivity.
Qed.

(** X1: whatever becomes of addAccount, [AddAccountAction.run] fires
    "start" first and exactly once and invokes addAccount once;
    "complete" fires once when addAccount settles and not at all while it
    is pending; "error" fires once when it rejects and not otherwise; and
    the returned promise is pending exactly when addAccount is. *)
Theorem add_account_events_by_outcome
    (svc : Services) (self : AddAccountAction) (w : World) :
  let outcome := svc_addAccount svc (_providerId self) in
  let r := AddAccountAction_run svc self w in
  let new := new_events w (snd r) in
  hd_error new = Some (Fire addAccountStart None)
  /\ count_fired addAccountStart new = 1%nat
  /\ invoked new = [addAccount (_providerId self)]
  /\ count_fired addAccountComplete new
     = (if settled outcome then 1%nat else 0%nat)
  /\ count_fired addAccountError new
     = (if rejected outcome then 1%nat else 0%nat)
  /\ settled (state (fst r)) = settled outcome.
Proof.
  intros outcome r new. subst new r outcome.
  destruct (svc_addAccount svc (_providerId self)) as [u|E|] eqn:H.
  - rewrite (add_run_fulfilled svc w self u H). read_trace. repeat split.
  - rewrite (add_run_rejected svc w self E H). read_trace. repeat split.
  - rewrite (add_run_pending svc w self H). read_trace. repeat split.
Qed.

(** X2: [AddAccountAction.run] writes to the error log only when
    addAccount rejects: then it logs "Error while adding account: "
    followed by the error, before it fires the "error" event.  It never
    shows a notification. *)
Theorem add_account_logs_failure
    (svc : Services) (self : AddAccountAction) (w : World) :
  let r := AddAccountAction_run svc self w in
  let new := new_events w (snd r) in
  notifications new = []
  /\ match svc_addAccount svc (_providerId self) with
     | Rejected E =>
         logged new = [("Error while adding account: " ++ E)%string]
         /\ occurs_before
              (LogError ("Error while adding account: " ++ E)%string)
              (Fire addAccountError (Some E)) new
     | _ => logged new = []
     end.
Proof.
  intros r new. subst new r.
  destruct (svc_addAccount svc (_providerId self)) as [u|E|] eqn:H.
  - rewrite (add_run_fulfilled svc w self u H). read_trace. repeat split.
  - rewrite (add_run_rejected svc w self E H). read_trace. repeat split.
    exists [Fire addAccountStart None;
            Invoke (addAccount (_providerId self));
            Settles (addAccount (_providerId self))], [],
           [Fire addAccountComplete None].
    reflexivity.
  - rewrite (add_run_pending svc w self H). read_trace. repeat split.
Qed.

(** X3: when the confirmation dialog itself fails with [E], the promise
    returned by [RemoveAccountAction.run] rejects with [E]: this failure
    is not absorbed.  removeAccount is not invoked, nothing is notified
    and nothing is logged. *)
Theorem remove_account_dialog_fails
    (svc : Services) (self : RemoveAccountAction) (w : World) (E : Err) :
  dlg_confirm svc (confirmation_of self) = Rejected E ->
  let r := RemoveAccountAction_run svc self w in
  let new := new_events w (snd r) in
  state (fst r) = Rejected E
  /\ invoked new = [confirm (confirmation_of self)]
  /\ notifications new = []
  /\ logged new = [].
Proof.
  intros H r new. subst new r.
  rewrite (remove_run_dialog_rejected svc w self E H).
  read_trace. repeat split.
Qed.

Lemma remove_account_dialog_fails_witness :
  dlg_confirm Samples.broken_dialog (confirmation_of Samples.remove_bob)
  = Rejected "dialog closed"
  /\ state (fst (RemoveAccountAction_run Samples.broken_dialog
                   Samples.remove_bob idle))
     = Rejected "dialog closed".
Proof.
  split; [reflexivity|].
  apply (remove_account_dialog_fails Samples.broken_dialog
           Samples.remove_bob idle "dialog closed" eq_refl).
Defined.

(** X4: [RemoveAccountAction.run] invokes removeAccount only after the
    confirmation dialog has settled with [true], and only for the key of
    the action's own account. *)
Theorem remove_account_only_after_confirmation
    (svc : Services) (self : RemoveAccountAction) (w : World)
    (k : AccountKey) :
  let r := RemoveAccountAction_run svc self w in
  let new := new_events w (snd r) in
  In (removeAccount k) (invoked new) ->
  dlg_confirm svc (confirmation_of self) = Fulfilled true
  /\ k = key (_account self)
  /\ occurs_before (Settles (confirm (confirmation_of self)))
       (Invoke (removeAccount k)) new.
Proof.
  intros r new. subst new r.
  destruct (dlg_confirm svc (confirmation_of self)) as [[|]|E|] eqn:H.
  - rewrite (remove_run_confirmed svc w self H).
    destruct (svc_removeAccount svc (key (_account self)));
      read_trace;
      (intros [Hk | [Hk | []]]; [discriminate Hk|]);
      injection Hk as <-; repeat split;
      eexists [_], [], _; reflexivity.
  - rewrite (remove_run_declined svc w self H). read_trace.
    intros [Hk | []]. discriminate Hk.
  - rewrite (remove_run_dialog_rejected svc w self E H). read_trace.
    intros [Hk | []]. discriminate Hk.
  - rewrite (remove_run_dialog_pending svc w self H). read_trace.
    intros [Hk | []]. discriminate Hk.
Qed.

Lemma remove_account_only_after_confirmation_witness :
  In (removeAccount (key Samples.bob))
     (invoked (new_events idle
        (snd (RemoveAccountAction_run Samples.failing_services
                Samples.remove_bob idle))))
  /\ dlg_confirm Samples.failing_services
       (confirmation_of Samples.remove_bob)
     = Fulfilled true.
Proof.
  split; [right; left; reflexivity|].
  apply (remove_account_only_after_confirmation Samples.failing_services
           Samples.remove_bob idle (key Samples.bob)).
  right; left; reflexivity.
Defined.

(** X5: the promise returned by [RemoveAccountAction.run] rejects with
    [E] exactly when the confirmation dialog rejects with [E]; a failure
    of removeAccount never makes it reject. *)
Theorem remove_account_rejects_only_with_dialog
    (svc : Services) (self : RemoveAccountAction) (w : World) (E : Err) :
  state (fst (RemoveAccountAction_run svc self w)) = Rejected E
  <-> dlg_confirm svc (confirmation_of self) = Rejected E.
Proof.
  destruct (dlg_confirm svc (confirmation_of self)) as [[|]|E'|] eqn:H.
  - rewrite (remove_run_confirmed svc w self H).
    destruct (svc_removeAccount svc (key (_account self)));
      simpl; split; discriminate.
  - rewrite (remove_run_declined svc w self H).
    simpl; split; discriminate.
  - rewrite (remove_run_dialog_rejected svc w self E' H).
    simpl; split; intros Heq; exact Heq.
  - rewrite (remove_run_dialog_pending svc w self H).
    simpl; split; discriminate.
Qed.

(** X6: [RefreshAccountAction.run] fires no event and shows no
    notification.  It writes to the error log only when refreshAccount
    rejects, "Error while refreshing account: " followed by the error;
    the rejection for a missing account is not logged. *)
Theorem refresh_account_logs_failure
    (svc : Services) (self : RefreshAccountAction) (w : World) :
  let r := RefreshAccountAction_run svc self w in
  let new := new_events w (snd r) in
  fired new = []
  /\ notifications new = []
  /\ logged new
     = match account self with
       | Some a =>
           match svc_refreshAccount svc a with
           | Rejected E => [("Error while refreshing account: " ++ E)%string]
           | _ => []
           end
       | None => []
       end.
Proof.
  intros r new. subst new r.
  destruct (account self) as [a|] eqn:Ha.
  - rewrite (refresh_run_set svc w self a Ha).
    destruct (svc_refreshAccount svc a); read_trace; repeat split.
  - rewrite (refresh_run_unset svc w self Ha).
    unfold new_events; simpl. rewrite skipn_all. repeat split.
Qed.

End AccountActionsFacts.

(* ================================================================== *)
(** ** Properties of the webview widget *)

Module WebviewFacts.
Import Webview.

Lemma skipn_trace {A} (l new : list A) :
  skipn (length l) (l ++ new) = new.
Proof.
  induction l as [|z l IH]; simpl; [reflexivity | exact IH].
Qed.

Ltac unfold_widget :=
  unfold _createWebview, ngOnInit, setHtml, sendMessage, layout,
    connection, serverInfo, memoize, connection_body, serverInfo_body,
    createInstance, webview_onMessage, getTheme, on_webview, allocate,
    assign, this, emit, throw, bind, ret, with_self, with_trace;
  simpl.

(** A creation always returns, and does what the creation sequence says. *)
Lemma createWebview_runs (st : State) :
  _createWebview st = (Returned tt, created st).
Proof.
  destruct st as [[i wv html d el mc ms] ci th f t].
  unfold created, creation_sequence, disposals, reapplied; simpl.
  destruct wv as [h0|], d as [s0|], html as [x|];
    try destruct (String.eqb x "") eqn:Hx;
    unfold_widget; rewrite ?Hx; simpl;
    rewrite <- ?app_assoc; simpl; reflexivity.
Qed.

Lemma ngOnInit_runs (st : State) :
  ngOnInit st
  = (Returned tt,
     created (with_trace (trace st ++ [RegisterWebview (_id (self st))]) st)).
Proof.
  unfold ngOnInit, bind, this, emit. simpl.
  apply createWebview_runs.
Qed.

Lemma setHtml_runs (html : string) (st : State) :
  setHtml html st
  = (Returned tt,
     match _webview (self st) with
     | Some h =>
         with_trace (trace st ++ [WvSetContents h html; WvLayout h])
           (with_self (set_html (Some html)) st)
     | None => with_self (set_html (Some html)) st
     end).
Proof.
  destruct st as [[i wv x d el mc ms] ci th f t].
  destruct wv; unfold_widget; rewrite <- ?app_assoc; reflexivity.
Qed.

Lemma sendMessage_runs (m : string) (st : State) :
  sendMessage m st
  = match _webview (self st) with
    | Some h => (Returned tt, with_trace (trace st ++ [WvSendMessage h m]) st)
    | None => (Returned tt, st)
    end.
Proof.
  destruct st as [[i wv x d el mc ms] ci th f t].
  destruct wv; unfold_widget; reflexivity.
Qed.

Lemma layout_runs (st : State) :
  layout st
  = match _webview (self st) with
    | Some h => (Returned tt, with_trace (trace st ++ [WvLayout h]) st)
    | None => (Thrown "TypeError: Cannot read property of undefined", st)
    end.
Proof.
  destruct st as [[i wv x d el mc ms] ci th f t].
  destruct wv; unfold_widget; reflexivity.
Qed.

Lemma connection_runs (st : State) :
  connection st
  = match memoize_connection (self st) with
    | Some c => (Returned c, st)
    | None =>
        (Returned (connection_of (connectionInfo st)),
         with_self
           (set_memoize_connection (Some (connection_of (connectionInfo st))))
           st)
    end.
Proof.
  destruct st as [[i wv x d el mc ms] ci th f t].
  destruct mc; unfold_widget; reflexivity.
Qed.

Lemma serverInfo_runs (st : State) :
  serverInfo st
  = match memoize_serverInfo (self st) with
    | Some v => (Returned v, st)
    | None =>
        (Returned (held_serverInfo (connectionInfo st)),
         with_self
           (set_memoize_serverInfo
              (Some (held_serverInfo (connectionInfo st))))
           st)
    end.
Proof.
  destruct st as [[i wv x d el mc ms] ci th f t].
  destruct ms; unfold_widget; reflexivity.
Qed.

(** *** What is alive *)

Lemma live_webviews_app (t new : list Effect) :
  live_webviews (t ++ new) = fold_left webviews_step new (live_webviews t).
Proof. unfold live_webviews. apply fold_left_app. Qed.

Lemma live_subscriptions_app (t new : list Effect) :
  live_subscriptions (t ++ new)
  = fold_left subscriptions_step new (live_subscriptions t).
Proof. unfold live_subscriptions. apply fold_left_app. Qed.

Lemma neutral_webviews (new : list Effect) (live : list Handle) :
  forallb neutral new = true -> fold_left webviews_step new live = live.
Proof.
  revert live. induction new as [|e new IH]; intros live H; simpl in *.
  - reflexivity.
  - apply andb_true_iff in H as [He Hnew].
    rewrite <- (IH live Hnew) at 2.
    destruct e; simpl in *; try discriminate; reflexivity.
Qed.

Lemma neutral_subscriptions (new : list Effect)
    (live : list (Handle * Handle)) :
  forallb neutral new = true -> fold_left subscriptions_step new live = live.
Proof.
  revert live. induction new as [|e new IH]; intros live H; simpl in *.
  - reflexivity.
  - apply andb_true_iff in H as [He Hnew].
    rewrite <- (IH live Hnew) at 2.
    destruct e; simpl in *; try discriminate; reflexivity.
Qed.

Lemma fires_neutral {A} (msg : string) (l : list A) :
  forallb neutral (map (fun _ => OnMessageFire msg) l) = true.
Proof. induction l; simpl; auto. Qed.

(** Adding neutral calls to the trace keeps the ownership. *)
Lemma owns_neutral (st : State) (new : list Effect) :
  forallb neutral new = true ->
  owns st -> owns (with_trace (trace st ++ new) st).
Proof.
  intros Hn [Hw Hs]. unfold owns; simpl.
  rewrite live_webviews_app, live_subscriptions_app.
  rewrite (neutral_webviews _ _ Hn), (neutral_subscriptions _ _ Hn).
  split; assumption.
Qed.

(** After a creation only the new webview and subscription are alive. *)
Lemma created_alive (st : State) :
  owns st ->
  live_webviews (trace (created st)) = [fresh st]
  /\ live_subscriptions (trace (created st)) = [(fresh st, S (fresh st))].
Proof.
  intros [Hw Hs].
  destruct st as [[i wv x d el mc ms] ci th f t]; simpl in *.
  rewrite live_webviews_app, live_subscriptions_app, Hw, Hs.
  unfold creation_sequence, disposals, reapplied; simpl.
  destruct wv as [h0|], d as [s0|], x as [x|];
    try destruct (String.eqb x ""); simpl;
    rewrite ?Nat.eqb_refl; simpl; split; reflexivity.
Qed.

Lemma owns_created (st : State) : owns st -> owns (created st).
Proof.
  intros H. destruct (created_alive st H) as [Hw Hs].
  unfold owns. rewrite Hw, Hs. simpl. split; reflexivity.
Qed.

Lemma owns_step (o : Op) (st : State) : owns st -> owns (step o st).
Proof.
  intros H. destruct o; simpl.
  - rewrite ngOnInit_runs; simpl. apply owns_created.
    apply (owns_neutral st [RegisterWebview (_id (self st))]); auto.
  - rewrite setHtml_runs; simpl.
    destruct st as [[i wv x d el mc ms] ci th f t].
    destruct wv as [h0|]; [|exact H].
    apply (owns_neutral
             {| self := set_html (Some html) _; connectionInfo := ci;
                theme := th; fresh := f; trace := t |}
             [WvSetContents h0 html; WvLayout h0]); auto.
  - rewrite connection_runs.
    destruct st as [[i wv x d el mc ms] ci th f t].
    destruct mc; exact H.
  - rewrite serverInfo_runs.
    destruct st as [[i wv x d el mc ms] ci th f t].
    destruct ms; exact H.
  - rewrite layout_runs.
    destruct (_webview (self st)) as [h0|] eqn:E; simpl; [|exact H].
    apply owns_neutral; auto.
  - rewrite sendMessage_runs.
    destruct (_webview (self st)) as [h0|] eqn:E; simpl; [|exact H].
    apply owns_neutral; auto.
  - rewrite createWebview_runs; simpl. apply owns_created, H.
  - unfold post_message. apply owns_neutral; [apply fires_neutral | exact H].
  - exact H.
  - exact H.
  - exact H.
  - exact H.
  - exact H.
Qed.

Lemma owns_run_ops (ops : list Op) (st : State) :
  owns st -> owns (run_ops ops st).
Proof.
  revert st. induction ops as [|o ops IH]; intros st H; simpl.
  - exact H.
  - apply IH, owns_step, H.
Qed.

Lemma owns_constructed (config_id el : string) (info : ConnectionInfo)
    (th : string) :
  owns (constructed config_id el info th).
Proof. split; reflexivity. Qed.

(** *** The cached getters *)







(** A posted message fires once per live subscription on its webview. *)
Lemma post_message_events (h : Handle) (msg : string) (st : State) :
  new_events st (post_message h msg st)
  = map (fun _ => OnMessageFire msg)
      (filter (fun p => Nat.eqb (fst p) h) (live_subscriptions (trace st))).
Proof. unfold new_events, post_message; simpl. apply skipn_trace. Qed.

(** *** The claims about the widget *)

(** C7, as amended: calling [setHtml(html)] with a non-empty [html]
    while no webview exists, and then creating the webview, sets the
    contents of the new webview to [html] exactly once, and a layout of
    that webview follows. *)
Theorem setHtml_before_creation (st : State) (html : string) :
  _webview (self st) = None ->
  html <> "" ->
  contents_set_once_then_layout st html.
Proof.
  intros Hnone Hhtml.
  destruct html as [|c rest]; [congruence|].
  unfold contents_set_once_then_layout, setHtml_then_create, bind.
  rewrite setHtml_runs, Hnone, createWebview_runs.
  destruct st as [[i wv x d el mc ms] ci th f t]; simpl in *; subst wv.
  unfold new_events, creation_sequence, disposals, reapplied; simpl.
  rewrite skipn_trace.
  destruct d as [s0|]; simpl; rewrite Nat.eqb_refl; repeat split.
  - exists [SubscriptionDispose s0; CreateInstance f EDITOR_PART true;
            WvMountTo f el; WvOnMessage f (S f); WvStyle f th].
    reflexivity.
  - exists [CreateInstance f EDITOR_PART true;
            WvMountTo f el; WvOnMessage f (S f); WvStyle f th].
    reflexivity.
Qed.

Lemma setHtml_before_creation_witness :
  _webview (self Samples.new_widget) = None
  /\ "x" <> ""
  /\ contents_set_once_then_layout Samples.new_widget "x".
Proof.
  split; [reflexivity|]. split; [discriminate|].
  apply (setHtml_before_creation Samples.new_widget "x");
    [reflexivity | discriminate].
Defined.

(** C7 as stated fails for the empty string: after [setHtml("")] on a
    widget without a webview, a creation never sets the contents of the
    new webview. *)
Lemma setHtml_empty_not_applied :
  ~ contents_set_once_then_layout Samples.new_widget "".
Proof.
  intros [_ [H _]]. vm_compute in H. discriminate H.
Qed.

(** With the empty string cached, a creation from a widget without a
    webview leaves the contents of the new webview alone and still lays
    it out. *)
Lemma setHtml_empty_before_creation (st : State) :
  _webview (self st) = None ->
  let st' := snd (setHtml_then_create "" st) in
  contents_history (fresh st) (new_events st st') = []
  /\ exists before, new_events st st' = before ++ [WvLayout (fresh st)].
Proof.
  intros Hnone.
  unfold setHtml_then_create, bind.
  rewrite setHtml_runs, Hnone, createWebview_runs.
  destruct st as [[i wv x d el mc ms] ci th f t]; simpl in *; subst wv.
  unfold new_events, creation_sequence, disposals, reapplied; simpl.
  rewrite skipn_trace.
  destruct d as [s0|]; simpl; split; try reflexivity.
  - exists [SubscriptionDispose s0; CreateInstance f EDITOR_PART true;
            WvMountTo f el; WvOnMessage f (S f); WvStyle f th].
    reflexivity.
  - exists [CreateInstance f EDITOR_PART true;
            WvMountTo f el; WvOnMessage f (S f); WvStyle f th].
    reflexivity.
Qed.

(** C8: in every state that a widget can reach, a creation first
    disposes the existing webview and the existing message subscription
    (each when it exists), then instantiates a new webview on the editor
    part with scripts allowed, mounts it into the root node, subscribes
    to its messages, applies the current theme, reapplies the cached
    HTML when it is set and non-empty, and lays the webview out.
    Afterwards the new webview and the new subscription are the only
    ones alive: a message posted by the new webview is re-emitted once
    on the widget's onMessage event, and a message posted by any other
    webview is not re-emitted. *)
Theorem creation_disposes_then_builds
    (config_id el : string) (info : ConnectionInfo) (th : string)
    (ops : list Op) :
  let st := run_ops ops (constructed config_id el info th) in
  let r := _createWebview st in
  let st' := snd r in
  let h := fresh st in
  let s := S (fresh st) in
  fst r = Returned tt
  /\ trace st'
     = trace st
       ++ disposals (self st)
       ++ [CreateInstance h EDITOR_PART true;
           WvMountTo h (_el (self st));
           WvOnMessage h s;
           WvStyle h (theme st)]
       ++ reapplied (self st) h
       ++ [WvLayout h]
  /\ _webview (self st') = Some h
  /\ _onMessageDisposable (self st') = Some s
  /\ live_webviews (trace st') = [h]
  /\ live_subscriptions (trace st') = [(h, s)]
  /\ (forall msg,
        new_events st' (post_message h msg st') = [OnMessageFire msg])
  /\ (forall h0 msg, h0 <> h ->
        new_events st' (post_message h0 msg st') = []).
Proof.
  intros st r st' h s. subst r st'.
  assert (Hown : owns st)
    by (apply owns_run_ops, owns_constructed).
  rewrite createWebview_runs; cbn [fst snd].
  destruct (created_alive st Hown) as [Hw Hs].
  repeat split; try assumption.
  - intros msg. rewrite post_message_events, Hs. simpl.
    fold h. rewrite Nat.eqb_refl. reflexivity.
  - intros h0 msg Hh0. rewrite post_message_events, Hs. simpl.
    fold h. apply Nat.eqb_neq in Hh0.
    rewrite Nat.eqb_sym, Hh0. reflexivity.
Qed.

(** C9: [sendMessage(m)] forwards [m] to the webview when there is one,
    changing no field of the widget; when there is none it returns
    normally and leaves the whole state as it was. *)
Theorem sendMessage_forwards_or_ignores (m : string) (st : State) :
  sendMessage m st
  = match _webview (self st) with
    | Some h =>
        (Returned tt,
         {| self := self st;
            connectionInfo := connectionInfo st;
            theme := theme st;
            fresh := fresh st;
            trace := trace st ++ [WvSendMessage h m] |})
    | None => (Returned tt, st)
    end.
Proof. apply sendMessage_runs. Qed.

(** *** Objects held by reference *)


Lemma nth_error_new_object {A} (l : list A) (x : A) :
  nth_error (l ++ [x]) (length l) = Some x.
Proof.
  induction l as [|y l IH]; simpl; [reflexivity | exact IH].
Qed.
















(** *** Further properties of the widget *)

Ltac rewrite_runs :=
  rewrite ?ngOnInit_runs, ?setHtml_runs, ?connection_runs,
    ?serverInfo_runs, ?layout_runs, ?sendMessage_runs,
    ?createWebview_runs.

Lemma webview_stays_step (o : Op) (st : State) :
  is_set (_webview (self st)) = true ->
  is_set (_webview (self (step o st))) = true.
Proof.
  intros H.
  destruct st as [[i wv x d el mc ms] ci th f t]; simpl in H.
  destruct wv as [h|]; [|discriminate H].
  destruct o; simpl; rewrite_runs; simpl; try reflexivity.
  - destruct mc; reflexivity.
  - destruct ms; reflexivity.
Qed.

Lemma webview_stays (ops : list Op) (st : State) :
  is_set (_webview (self st)) = true ->
  is_set (_webview (self (run_ops ops st))) = true.
Proof.
  revert st. induction ops as [|o ops IH]; intros st H; simpl.
  - exact H.
  - apply IH, webview_stays_step, H.
Qed.

Lemma id_kept_step (o : Op) (st : State) :
  _id (self (step o st)) = _id (self st).
Proof.
  destruct st as [[i wv x d el mc ms] ci th f t].
  destruct o; simpl; rewrite_runs; simpl; try reflexivity.
  - destruct wv; reflexivity.
  - destruct mc; reflexivity.
  - destruct ms; reflexivity.
  - destruct wv; reflexivity.
  - destruct wv; reflexivity.
Qed.

Lemma html_kept_step (o : Op) (st : State) :
  is_setHtml o = false ->
  _html (self (step o st)) = _html (self st).
Proof.
  intros Ho.
  destruct st as [[i wv x d el mc ms] ci th f t].
  destruct o; simpl; rewrite_runs; simpl; try reflexivity;
    try discriminate Ho.
  - destruct mc; reflexivity.
  - destruct ms; reflexivity.
  - destruct wv; reflexivity.
  - destruct wv; reflexivity.
Qed.

Lemma html_kept (ops : list Op) (st : State) :
  forallb (fun o => negb (is_setHtml o)) ops = true ->
  _html (self (run_ops ops st)) = _html (self st).
Proof.
  revert st. induction ops as [|o ops IH]; intros st H; simpl in *.
  - reflexivity.
  - apply andb_true_iff in H as [Ho Hops].
    rewrite (IH _ Hops). apply html_kept_step.
    now apply negb_true_iff in Ho.
Qed.

(** X8: [layout()] on a widget that has no webview throws, and leaves
    the widget and the trace as they were ([sendMessage] in the same
    situation returns normally). *)
Theorem layout_without_webview (st : State) :
  _webview (self st) = None ->
  exists e, layout st = (Thrown e, st).
Proof.
  intros H. rewrite layout_runs, H. eexists. reflexivity.
Qed.

Lemma layout_without_webview_witness :
  _webview (self Samples.new_widget) = None
  /\ exists e, layout Samples.new_widget = (Thrown e, Samples.new_widget).
Proof.
  split; [reflexivity|].
  apply (layout_without_webview Samples.new_widget). reflexivity.
Defined.

(** X9: once [ngOnInit] has run, the widget has a webview in every later
    state, whatever is called in between; so [layout()] returns normally
    from then on and forwards exactly one layout call to the current
    webview. *)
Theorem layout_after_init
    (config_id el : string) (info : ConnectionInfo) (th : string)
    (before after : list Op) :
  let st :=
    run_ops after
      (step op_ngOnInit (run_ops before (constructed config_id el info th)))
  in
  exists h,
    _webview (self st) = Some h
    /\ layout st
       = (Returned tt,
          {| self := self st;
             connectionInfo := connectionInfo st;
             theme := theme st;
             fresh := fresh st;
             trace := trace st ++ [WvLayout h] |}).
Proof.
  intros st.
  assert (H : is_set (_webview (self st)) = true).
  { apply webview_stays. simpl. rewrite ngOnInit_runs. reflexivity. }
  rewrite layout_runs.
  destruct (_webview (self st)) as [h|]; [|discriminate H].
  exists h. split; reflexivity.
Qed.

(** X10: the id of the widget never changes: in every state the widget
    can reach, [id] returns the id given in the widget configuration and
    changes nothing. *)
Theorem id_is_immutable
    (config_id el : string) (info : ConnectionInfo) (th : string)
    (ops : list Op) :
  let st := run_ops ops (constructed config_id el info th) in
  id st = (Returned config_id, st).
Proof.
  intros st. unfold id, this.
  assert (H : forall l s, _id (self (run_ops l s)) = _id (self s)).
  { induction l as [|o l IH]; intros s; simpl; [reflexivity|].
    rewrite IH. apply id_kept_step. }
  subst st. rewrite H. reflexivity.
Qed.

(** A widget stays as the constructor left it until a creation runs. *)
Lemma pristine_kept (config_id el : string) (ops : list Op) (st : State) :
  forallb (fun o => negb (is_creation o)) ops = true ->
  pristine config_id el st ->
  pristine config_id el (run_ops ops st).
Proof.
  revert st. induction ops as [|o ops IH]; intros st Hops Hst; simpl in *.
  - exact Hst.
  - apply andb_true_iff in Hops as [Ho Hops].
    apply IH; [exact Hops|]. clear IH Hops.
    destruct st as [[i wv x d e mc ms] ci th f t].
    unfold pristine in *; simpl in Hst.
    destruct Hst as (-> & -> & -> & -> & -> & ->).
    destruct o; try discriminate Ho; simpl; rewrite_runs; simpl;
      try (repeat split; fail).
    + destruct mc; repeat split.
    + destruct ms; repeat split.
Qed.

(** X11: the first [ngOnInit] of a widget, whatever was called before it
    short of a creation, registers the widget with the view service
    under its id and then builds the webview.  Nothing is disposed; the
    webview is instantiated on the editor part with scripts allowed,
    mounted into the root node, subscribed to and styled with the
    current theme; its contents are set only when [setHtml] has cached
    a non-empty HTML before; then it is laid out.  These are the first
    calls the widget makes. *)
Theorem first_initialisation
    (config_id el : string) (info : ConnectionInfo) (th : string)
    (ops : list Op) :
  forallb (fun o => negb (is_creation o)) ops = true ->
  let st := run_ops ops (constructed config_id el info th) in
  fst (ngOnInit st) = Returned tt
  /\ trace (snd (ngOnInit st))
     = [RegisterWebview config_id;
        CreateInstance 0 EDITOR_PART true;
        WvMountTo 0 el;
        WvOnMessage 0 1;
        WvStyle 0 (theme st)]
       ++ reapplied (self st) 0
       ++ [WvLayout 0]
  /\ _webview (self (snd (ngOnInit st))) = Some 0%nat
  /\ _onMessageDisposable (self (snd (ngOnInit st))) = Some 1%nat.
Proof.
  intros Hops st.
  assert (Hp : pristine config_id el st).
  { apply pristine_kept; [exact Hops|]. repeat split. }
  rewrite ngOnInit_runs.
  destruct st as [[i wv x d e mc ms] ci t f tr].
  unfold pristine in Hp; simpl in Hp.
  destruct Hp as (-> & -> & -> & -> & -> & ->).
  repeat split.
Qed.

Lemma first_initialisation_witness :
  forallb (fun o => negb (is_creation o))
    [op_setHtml "x"; op_layout; op_sendMessage "m"] = true
  /\ trace (snd (ngOnInit
       (run_ops [op_setHtml "x"; op_layout; op_sendMessage "m"]
          (constructed "tasks" "div" Samples.sql_server "dark"))))
     = [RegisterWebview "tasks";
        CreateInstance 0 EDITOR_PART true;
        WvMountTo 0 "div";
        WvOnMessage 0 1;
        WvStyle 0 "dark";
        WvSetContents 0 "x";
        WvLayout 0].
Proof.
  split; [reflexivity|].
  exact (proj1 (proj2
    (first_initialisation "tasks" "div" Samples.sql_server "dark"
       [op_setHtml "x"; op_layout; op_sendMessage "m"] eq_refl))).
Defined.

(** X12: in every state the widget can reach, at most one webview and at
    most one message subscription are alive, and they are the ones held
    in the widget's fields. *)
Theorem widget_owns_what_is_alive
    (config_id el : string) (info : ConnectionInfo) (th : string)
    (ops : list Op) :
  let st := run_ops ops (constructed config_id el info th) in
  owns st
  /\ (length (live_webviews (trace st)) <= 1)%nat
  /\ (length (live_subscriptions (trace st)) <= 1)%nat.
Proof.
  intros st.
  assert (H : owns st) by (apply owns_run_ops, owns_constructed).
  split; [exact H|]. destruct H as [Hw Hs]. rewrite Hw, Hs.
  destruct (_webview (self st)), (_onMessageDisposable (self st));
    simpl; lia.
Qed.

(** X13: in every state the widget can reach, a message posted by a
    webview is re-emitted on the widget's onMessage event exactly once
    when that webview is the widget's current one, and not at all when
    it is any other webview (a replaced one, for instance). *)
Theorem messages_only_from_current_webview
    (config_id el : string) (info : ConnectionInfo) (th : string)
    (ops : list Op) (h : Handle) (msg : string) :
  let st := run_ops ops (constructed config_id el info th) in
  new_events st (post_message h msg st)
  = match _webview (self st), _onMessageDisposable (self st) with
    | Some current, Some _ =>
        if Nat.eqb current h then [OnMessageFire msg] else []
    | _, _ => []
    end.
Proof.
  intros st.
  assert (H : owns st) by (apply owns_run_ops, owns_constructed).
  destruct H as [_ Hs]. rewrite post_message_events, Hs.
  destruct (_webview (self st)) as [c|],
           (_onMessageDisposable (self st)) as [s|]; simpl;
    try reflexivity.
  destruct (Nat.eqb c h); reflexivity.
Qed.

(** X14: the HTML given to [setHtml] stays cached until the next
    [setHtml]: after [setHtml(html)] with a non-empty [html] and any
    calls other than [setHtml], a creation sets the contents of the new
    webview to [html] exactly once. *)
Theorem cached_html_survives
    (st : State) (html : string) (ops : list Op) :
  html <> "" ->
  forallb (fun o => negb (is_setHtml o)) ops = true ->
  let st1 := run_ops ops (snd (setHtml html st)) in
  let st2 := snd (_createWebview st1) in
  _html (self st2) = Some html
  /\ _webview (self st2) = Some (fresh st1)
  /\ contents_history (fresh st1) (new_events st1 st2) = [html].
Proof.
  intros Hhtml Hops st1 st2.
  assert (H1 : _html (self st1) = Some html).
  { subst st1. rewrite (html_kept _ _ Hops), setHtml_runs. simpl.
    destruct (_webview (self st)); reflexivity. }
  subst st2. rewrite createWebview_runs. cbn [snd].
  destruct html as [|c rest]; [congruence|].
  destruct st1 as [[i wv x d el mc ms] ci th f t]; simpl in *; subst x.
  repeat split.
  unfold new_events, creation_sequence, disposals, reapplied; simpl.
  rewrite skipn_trace.
  destruct wv, d; simpl; rewrite Nat.eqb_refl; reflexivity.
Qed.

Lemma cached_html_survives_witness :
  "x" <> ""
  /\ forallb (fun o => negb (is_setHtml o))
       [op_ngOnInit; op_sendMessage "m"; op_createWebview] = true
  /\ contents_history 4
       (new_events
          (run_ops [op_ngOnInit; op_sendMessage "m"; op_createWebview]
             (snd (setHtml "x" Samples.new_widget)))
          (snd (_createWebview
             (run_ops [op_ngOnInit; op_sendMessage "m"; op_createWebview]
                (snd (setHtml "x" Samples.new_widget))))))
     = ["x"].
Proof.
  split; [discriminate|]. split; [reflexivity|].
  apply (cached_html_survives Samples.new_widget "x"
           [op_ngOnInit; op_sendMessage "m"; op_createWebview]);
    [discriminate | reflexivity].
Defined.

(** X15: messages are not queued.  A message sent while the widget has
    no webview is dropped: a creation that follows forwards nothing to
    the new webview. *)
Theorem messages_not_buffered (st : State) (m : string) :
  _webview (self st) = None ->
  let st1 := snd (sendMessage m st) in
  let st2 := snd (_createWebview st1) in
  st1 = st /\ sent (new_events st st2) = [].
Proof.
  intros H st1 st2. subst st2 st1.
  rewrite sendMessage_runs, H. cbn [snd].
  rewrite createWebview_runs. cbn [snd]. split; [reflexivity|].
  unfold new_events, created; cbn [trace]. rewrite skipn_trace.
  destruct st as [[i wv x d el mc ms] ci th f t]; simpl in H; subst wv.
  unfold creation_sequence, disposals, reapplied; simpl.
  destruct d, x as [x|]; try destruct (String.eqb x ""); reflexivity.
Qed.

Lemma messages_not_buffered_witness :
  _webview (self Samples.new_widget) = None
  /\ sent (new_events Samples.new_widget
             (snd (_createWebview
                (snd (sendMessage "m" Samples.new_widget)))))
     = [].
Proof.
  split; [reflexivity|].
  apply (messages_not_buffered Samples.new_widget "m"). reflexivity.
Defined.

(** X16: the two getters are cached independently of each other.  When
    [connection] is first read, the connection info of the service is
    then replaced by a new one, and [serverInfo] is first read only
    after that, [serverInfo] shows the server info of the new connection
    while [connection] still returns the object made from the old
    profile: the old provider name, the old id and the old option bag. *)
Theorem getters_cache_independently (st : State) (info' : ConnectionInfo) :
  memoize_connection (self st) = None ->
  memoize_serverInfo (self st) = None ->
  let st1 := snd (connection st) in
  let st2 := step (op_connection_changed info') st1 in
  serverInfo_shown st2 = Some (Some (serverInfo_of info'))
  /\ fst (connection (snd (serverInfo st2)))
     = Returned (connection_of (connectionInfo st)).
Proof.
  intros Hc Hs st1 st2. subst st2 st1.
  destruct st as [[i wv x d el mc ms] ci th f t];
    simpl in Hc, Hs; subst mc ms.
  split; [|reflexivity].
  unfold serverInfo_shown, read_serverInfo; simpl.
  apply f_equal, nth_error_new_object.
Qed.

Lemma getters_cache_independently_witness :
  memoize_connection (self Samples.new_widget) = None
  /\ memoize_serverInfo (self Samples.new_widget) = None
  /\ serverInfo_shown
       (step (op_connection_changed Samples.postgres)
          (snd (connection Samples.new_widget)))
     = Some (Some (serverInfo_of Samples.postgres)).
Proof.
  split; [reflexivity|]. split; [reflexivity|].
  apply (getters_cache_independently Samples.new_widget Samples.postgres
           eq_refl eq_refl).
Defined.

(** X17: [setHtml("")] on a widget with a webview sets the contents of
    that webview to the empty string and lays it out, but a creation
    that follows does not set the contents of the new webview. *)
Theorem setHtml_empty_clears_live_webview (st : State) (h : Handle) :
  _webview (self st) = Some h ->
  let st1 := snd (setHtml "" st) in
  let st2 := snd (_createWebview st1) in
  new_events st st1 = [WvSetContents h ""; WvLayout h]
  /\ contents_history (fresh st1) (new_events st1 st2) = [].
Proof.
  intros H st1 st2. subst st2 st1.
  rewrite setHtml_runs, H. cbn [snd].
  rewrite createWebview_runs. cbn [snd].
  destruct st as [[i wv x d el mc ms] ci th f t]; simpl in H; subst wv.
  unfold new_events, created, with_trace, with_self; cbn [trace].
  rewrite !skipn_trace. split; [reflexivity|].
  unfold creation_sequence, disposals, reapplied; simpl.
  destruct d; reflexivity.
Qed.

Lemma setHtml_empty_clears_live_webview_witness :
  _webview (self Samples.live_widget) = Some 0%nat
  /\ new_events Samples.live_widget (snd (setHtml "" Samples.live_widget))
     = [WvSetContents 0 ""; WvLayout 0].
Proof.
  split; [reflexivity|].
  apply (setHtml_empty_clears_live_webview Samples.live_widget 0%nat).
  reflexivity.
Defined.

Lemma used_live_app (live : list Handle) (t new : list Effect) :
  used_live live (t ++ new)
  = used_live live t && used_live (fold_left webviews_step t live) new.
Proof.
  revert live. induction t as [|e t IH]; intros live; simpl.
  - reflexivity.
  - rewrite IH, andb_assoc. reflexivity.
Qed.

Lemma creation_uses_live (st : State) :
  used_live
    (match _webview (self st) with Some h => [h] | None => [] end)
    (creation_sequence st) = true.
Proof.
  destruct st as [[i wv x d el mc ms] ci th f t].
  unfold creation_sequence, disposals, reapplied; simpl.
  destruct wv as [h0|], d as [s0|], x as [x|];
    try destruct (String.eqb x ""); simpl;
    rewrite ?Nat.eqb_refl; simpl; unfold uses_live; simpl;
    rewrite ?Nat.eqb_refl; reflexivity.
Qed.

Lemma used_live_fires {A} (live : list Handle) (msg : string) (l : list A) :
  used_live live (map (fun _ => OnMessageFire msg) l) = true.
Proof. induction l; simpl; auto. Qed.

(** Ownership and live use go through every step together. *)
Lemma live_use_step (o : Op) (st : State) :
  owns st -> used_live [] (trace st) = true ->
  used_live [] (trace (step o st)) = true.
Proof.
  intros [Hw _] Hu.
  assert (Happ : forall new,
            used_live (match _webview (self st) with
                       | Some h => [h] | None => [] end) new = true ->
            used_live [] (trace st ++ new) = true).
  { intros new Hnew. rewrite used_live_app, Hu. simpl.
    fold (live_webviews (trace st)). rewrite Hw. exact Hnew. }
  destruct o; simpl; rewrite_runs.
  - unfold created; cbn [snd trace with_trace].
    rewrite <- app_assoc. apply Happ. simpl.
    change (used_live
              (match _webview (self st) with Some h => [h] | None => [] end)
              (creation_sequence
                 (with_trace (trace st ++ [RegisterWebview (_id (self st))])
                    st)) = true).
    apply (creation_uses_live
             (with_trace (trace st ++ [RegisterWebview (_id (self st))]) st)).
  - cbn [snd]. destruct (_webview (self st)) as [h|] eqn:E.
    + cbn [trace with_trace]. apply Happ. simpl. unfold uses_live; simpl.
      rewrite ?Nat.eqb_refl. reflexivity.
    + exact Hu.
  - destruct (memoize_connection (self st)); exact Hu.
  - destruct (memoize_serverInfo (self st)); exact Hu.
  - destruct (_webview (self st)) as [h|] eqn:E; cbn [snd]; [|exact Hu].
    cbn [trace with_trace]. apply Happ. simpl. unfold uses_live; simpl.
    rewrite ?Nat.eqb_refl. reflexivity.
  - destruct (_webview (self st)) as [h|] eqn:E; cbn [snd]; [|exact Hu].
    cbn [trace with_trace]. apply Happ. simpl. unfold uses_live; simpl.
    rewrite ?Nat.eqb_refl. reflexivity.
  - unfold created; cbn [snd trace]. apply Happ, creation_uses_live.
  - unfold post_message; cbn [trace with_trace].
    apply Happ, used_live_fires.
  - exact Hu.
  - exact Hu.
  - exact Hu.
  - exact Hu.
  - exact Hu.
Qed.

(** X18: the widget never calls a webview that is not alive: in every
    trace it can produce, each call on a webview (mount, subscribe,
    style, contents, layout, sendMessage, dispose) comes after that
    webview was instantiated and before it was disposed; in particular
    no webview is disposed twice. *)
Theorem no_use_after_dispose
    (config_id el : string) (info : ConnectionInfo) (th : string)
    (ops : list Op) :
  used_live [] (trace (run_ops ops (constructed config_id el info th)))
  = true.
Proof.
  assert (H : forall l st,
            owns st -> used_live [] (trace st) = true ->
            used_live [] (trace (run_ops l st)) = true).
  { induction l as [|o l IH]; intros st Ho Hu; simpl; [exact Hu|].
    apply IH; [apply owns_step, Ho | apply live_use_step; assumption]. }
  apply H; [apply owns_constructed | reflexivity].
Qed.

End WebviewFacts.
